(** * Verification of lib/spdy/server.js (secure-http2)

    Shallow embedding of the protocol-detection and connection-bootstrap
    layer of the SPDY/HTTP2 server: the byte sniffer [hoseFilter], the
    connection dispatch ([_onConnection], [_onPlainConnection],
    [_handleConnection], [_invokeDefault]), the per-stream socket adapter
    ([_onStream]) and the request/response shim ([emit]).

    JavaScript values are modelled as follows:
    - a Buffer is a [list Z] of byte values (0..255);
    - a possibly-undefined string is an [option string]; JavaScript
      truthiness of such a value is [truthy] ([undefined] and [""] are falsy);
    - objects handed to external code (sockets, listeners, sessions) are
      identified by natural numbers, and the observable side effects of a
      function are returned as an ordered trace of events. *)

From Stdlib Require Import String Ascii List ZArith QArith Bool Lia.
Import ListNotations.
Open Scope nat_scope.
Open Scope string_scope.
Open Scope list_scope.

(* ------------------------------------------------------------------ *)
(** ** JavaScript helpers *)

(** [!!v] for a possibly undefined string. *)
Definition truthy (v : option string) : bool :=
  match v with
  | Some s => negb (String.eqb s "")
  | None => false
  end.

(** [a || b]. *)
Definition js_or (a b : option string) : option string :=
  if truthy a then a else b.

(** [s.startsWith(p)] on strings. *)
Fixpoint starts_with (p s : string) : bool :=
  match p, s with
  | EmptyString, _ => true
  | String c p', String d s' => Ascii.eqb c d && starts_with p' s'
  | String _ _, EmptyString => false
  end.

(** [/pat/.test(s)] for a regular expression without metacharacters:
    does [pat] occur anywhere in [s]? *)
Fixpoint regex_test (pat s : string) : bool :=
  starts_with pat s ||
  match s with
  | EmptyString => false
  | String _ s' => regex_test pat s'
  end.

(** A JavaScript string as the bytes of its (ASCII) UTF-8 encoding. *)
Definition bytes_of_string (s : string) : list Z :=
  map (fun a => Z.of_nat (nat_of_ascii a)) (list_ascii_of_string s).

(* ------------------------------------------------------------------ *)
(** ** The prefix sniffer *)

(** [var PREFACE = 'PRI * HTTP/2.0\r\n\r\nSM\r\n\r\n';] *)
Definition CR : string := String (ascii_of_nat 13) EmptyString.
Definition LF : string := String (ascii_of_nat 10) EmptyString.
Definition PREFACE : string :=
  ("PRI * HTTP/2.0" ++ CR ++ LF ++ CR ++ LF ++ "SM" ++ CR ++ LF ++ CR ++ LF)%string.

(** [var PREFACE_BUFFER = new Buffer(PREFACE);] *)
Definition PREFACE_BUFFER : list Z := bytes_of_string PREFACE.

(** The loop
    [for (var i = 0; i < avail; i++) if (data[i] !== PREFACE_BUFFER[i]) ...]
    run from index [i] for [count] more iterations; [true] when it finds a
    mismatching position (and so returns ['http/1.1']). *)
Fixpoint preface_mismatch (data : list Z) (i count : nat) : bool :=
  match count with
  | O => false
  | S c =>
      if negb (Z.eqb (nth i data 0%Z) (nth i PREFACE_BUFFER 0%Z)) then true
      else preface_mismatch data (S i) c
  end.

(** [hoseFilter(data, callback)]: the value passed as the second argument
    of [callback]; [None] is [null] ("need more bytes"). *)
Definition hoseFilter (data : list Z) : option string :=
  if Nat.ltb (length data) 1 then None
  else if Z.eqb (nth 0 data 0%Z) 128 then Some "spdy"
  else
    let avail := Nat.min (length data) (length PREFACE_BUFFER) in
    if preface_mismatch data 0 avail then Some "http/1.1"
    else if negb (Nat.eqb avail (length PREFACE_BUFFER)) then None
    else Some "h2".

(* ------------------------------------------------------------------ *)
(** ** Server state and connections *)

(** The parts of [this._spdyState] that the dispatch reads. *)
Record ServerState := mkServerState {
  secure : bool;                         (* this instanceof tls.Server *)
  opt_plain : bool;                      (* !!state.options.plain *)
  opt_protocol : option string;          (* state.options.protocol *)
  opt_connection_protocol : option string;
                                         (* state.options.connection.protocol *)
  opt_connection_isServer : option bool; (* state.options.connection.isServer *)
  listeners : list nat                   (* state.listeners, in order *)
}.

(** An accepted connection. [conn_data] is the cumulative buffer that the
    select-hose has peeked when it calls [hoseFilter]; [conn_hose_socket] is
    the socket the hose passes along with its ['select'] event. *)
Record Conn := mkConn {
  conn_socket : nat;
  npnProtocol : option string;
  alpnProtocol : option string;
  conn_data : list Z;
  conn_hose_socket : nat
}.

(** Observers registered on a session with [connection.on(...)]. *)
Inductive Observer :=
| DestroySocketOnError (socket : nat)  (* connection.on('error', ...) *)
| RouteStream.                         (* connection.on('stream', ...) *)

(** Side effects of [_handleConnection], in program order. *)
Inductive Effect :=
| CallDefault (listener socket : nat)  (* state.listeners[i].call(this, socket) *)
| CreateSession (socket : nat) (protocol : string) (isServer : bool)
                                       (* transport.connection.create *)
| StartVersion (v : Q)                 (* connection.start(v) *)
| OnSession (o : Observer).

(** [_invokeDefault(socket)]. *)
Definition invokeDefault (st : ServerState) (socket : nat) : list Effect :=
  map (fun l => CallDefault l socket) (listeners st).

Definition is_str (v : option string) (s : string) : bool :=
  match v with
  | Some x => String.eqb x s
  | None => false
  end.

(** [if (!protocol) protocol = state.options.protocol;] *)
Definition resolve_protocol (st : ServerState) (protocol : option string)
  : option string :=
  if truthy protocol then protocol else opt_protocol st.

(** The [connection.start(...)] chain ("Set version when we are certain"). *)
Definition start_effects (protocol : string) : list Effect :=
  if String.eqb protocol "http2" then [StartVersion 4]
  else if String.eqb protocol "spdy/3.1" then [StartVersion (31 # 10)]
  else if String.eqb protocol "spdy/3" then [StartVersion 3]
  else if String.eqb protocol "spdy/2" then [StartVersion 2]
  else [].

(** [_handleConnection(socket, protocol)]. The session options are
    [util._extend({protocol: ..., isServer: true}, state.options.connection)],
    so keys of [state.options.connection] override the computed ones. *)
Definition handleConnection (st : ServerState) (socket : nat)
    (protocol : option string) : list Effect :=
  let protocol := resolve_protocol st protocol in
  if negb (truthy protocol) || is_str protocol "http/1.1"
     || is_str protocol "http/1.0"
  then invokeDefault st socket
  else
    let p := match protocol with Some p => p | None => "" end in
    let family := if regex_test "spdy" p then "spdy" else "http2" in
    let family := match opt_connection_protocol st with
                  | Some f => f | None => family end in
    let isServer := match opt_connection_isServer st with
                    | Some b => b | None => true end in
    [CreateSession socket family isServer]
      ++ start_effects p
      ++ [OnSession (DestroySocketOnError socket); OnSession RouteStream].

(** The session protocol and role that [_handleConnection] passes to
    [transport.connection.create] for an identifier [p]. *)
Definition session_family (st : ServerState) (p : string) : string :=
  match opt_connection_protocol st with
  | Some f => f
  | None => if regex_test "spdy" p then "spdy" else "http2"
  end.

Definition session_isServer (st : ServerState) : bool :=
  match opt_connection_isServer st with Some b => b | None => true end.

(** Events a session emits, and what the registered observers do. *)
Inductive SessionEvent := SessionError | SessionStream (stream : nat).

Inductive Reaction :=
| DestroySocket (socket : nat)         (* socket.destroy() *)
| HandleStream (stream : nat).         (* self._onStream(stream) *)

Definition observe (o : Observer) (e : SessionEvent) : list Reaction :=
  match o, e with
  | DestroySocketOnError s, SessionError => [DestroySocket s]
  | RouteStream, SessionStream st => [HandleStream st]
  | _, _ => []
  end.

(** The reactions of all observers registered in a trace to one event. *)
Definition session_react (tr : list Effect) (e : SessionEvent) : list Reaction :=
  flat_map (fun ef => match ef with OnSession o => observe o e | _ => [] end) tr.

(** The versions pinned in a trace. *)
Definition started_versions (tr : list Effect) : list Q :=
  flat_map (fun ef => match ef with StartVersion v => [v] | _ => [] end) tr.

(** [_init] registers [_onPlainConnection] when [state.options.plain] is set
    and [_onConnection] otherwise. *)
Inductive EntryPoint := OnConnection | OnPlainConnection.

Definition entry_point (st : ServerState) : EntryPoint :=
  if opt_plain st then OnPlainConnection else OnConnection.

(** [_onConnection]: the protocol argument it passes to [_handleConnection]. *)
Definition onConnection_protocol (st : ServerState) (c : Conn) : option string :=
  if secure st then js_or (npnProtocol c) (alpnProtocol c) else None.

(** How a connection reaches [_handleConnection]: [Handled sniffed socket arg]
    means [_handleConnection(socket, arg)] is called, after the sniffer when
    [sniffed]; [AwaitingBytes] means the select-hose is still waiting. *)
Inductive Dispatch :=
| Handled (sniffed : bool) (socket : nat) (protocol : option string)
| AwaitingBytes.

(** The connection listener: [_onConnection], or [_onPlainConnection] whose
    hose emits ['select'] once [hoseFilter] gives a non-null result. *)
Definition dispatch (st : ServerState) (c : Conn) : Dispatch :=
  match entry_point st with
  | OnConnection => Handled false (conn_socket c) (onConnection_protocol st c)
  | OnPlainConnection =>
      match hoseFilter (conn_data c) with
      | Some p => Handled true (conn_hose_socket c) (Some p)
      | None => AwaitingBytes
      end
  end.

(** The protocol identifier governing a connection, after the fallback of
    [_handleConnection] to [state.options.protocol]. *)
Inductive Resolution :=
| Resolved (sniffed : bool) (protocol : option string)
| Pending.

Definition resolution (st : ServerState) (c : Conn) : Resolution :=
  match dispatch st c with
  | Handled sn _ p => Resolved sn (resolve_protocol st p)
  | AwaitingBytes => Pending
  end.

(** All effects of an accepted connection. *)
Definition connection_effects (st : ServerState) (c : Conn) : list Effect :=
  match dispatch st c with
  | Handled _ s p => handleConnection st s p
  | AwaitingBytes => []
  end.

(* ------------------------------------------------------------------ *)
(** ** The stream-socket adapter *)

(** The fields of the [net.Socket] built in [_onStream]. *)
Record AdapterSocket := mkAdapterSocket {
  as_handle : nat;
  as_allowHalfOpen : bool;
  as_encrypted : bool;
  as_readable : bool;
  as_writable : bool
}.

Inductive StreamEvent :=
| SE_createHandle (stream : nat)       (* spdy.handle.create(stream) *)
| SE_assignSocket (s : AdapterSocket)  (* handle.assignSocket(socket) *)
| SE_default (listener : nat) (s : AdapterSocket)
                                       (* state.listeners[i].call(this, socket) *)
| SE_emitRequest (handle : nat).       (* handle.emitRequest() *)

Section Adapter.

(** What [new net.Socket({handle, allowHalfOpen: true})] leaves in the
    fields that [_onStream] later overwrites is left open. *)
Variables init_encrypted init_readable init_writable : bool.

(** [_onStream(stream)]; the handle created for [stream] is named by
    [stream]. *)
Definition onStream (st : ServerState) (stream : nat) : list StreamEvent :=
  let handle := stream in
  let socket := {| as_handle := handle; as_allowHalfOpen := true;
                   as_encrypted := init_encrypted;
                   as_readable := init_readable;
                   as_writable := init_writable |} in
  (* socket.encrypted = true; *)
  let socket := {| as_handle := as_handle socket;
                   as_allowHalfOpen := as_allowHalfOpen socket;
                   as_encrypted := true;
                   as_readable := as_readable socket;
                   as_writable := as_writable socket |} in
  let tr := [SE_createHandle stream; SE_assignSocket socket] in
  (* socket.readable = true; socket.writable = true; *)
  let socket := {| as_handle := as_handle socket;
                   as_allowHalfOpen := as_allowHalfOpen socket;
                   as_encrypted := as_encrypted socket;
                   as_readable := true;
                   as_writable := true |} in
  tr ++ map (fun l => SE_default l socket) (listeners st)
     ++ [SE_emitRequest handle].

End Adapter.

(* ------------------------------------------------------------------ *)
(** ** The request/response shim *)

(** Implementations a response method can be bound to. *)
Inductive Impl := NativeImpl | SpdyWriteHead | SpdyEnd | SpdyPush.

(** [req.socket._handle] (which is [req.connection._handle]: in Node's http
    module [req.connection] is the same object as [req.socket]): a
    [spdy.handle] carries the version its stream's session reports through
    [handle.getStream().connection.getVersion()]. *)
Inductive SockHandle :=
| OtherHandle (id : nat)
| SpdyHandle (id : nat) (version : Q).

Record Req := mkReq {
  req_id : nat;
  req_handle : SockHandle;
  req_isSpdy : option bool;
  req_spdyVersion : option Q
}.

Record Res := mkRes {
  res_id : nat;
  res_writeHead : Impl;
  res_end : Impl;
  res_push : option Impl
}.

Inductive EmitEffect :=
| AssignRequest (handle : nat) (r : Req)    (* handle.assignRequest(req) *)
| AssignResponse (handle : nat) (r : Res)   (* handle.assignResponse(res) *)
| Deliver (event : string) (r : Req) (s : Res).
                       (* EventEmitter.prototype.emit.apply(this, arguments) *)

Definition mark_req (r : Req) (isSpdy : bool) (v : Q) : Req :=
  {| req_id := req_id r; req_handle := req_handle r;
     req_isSpdy := Some isSpdy; req_spdyVersion := Some v |}.

(** [emit(event, req, res)]. *)
Definition emit (event : string) (req : Req) (res : Res) : list EmitEffect :=
  if negb (String.eqb event "request") then [Deliver event req res]
  else
    match req_handle req with
    | OtherHandle _ => [Deliver event (mark_req req false 1) res]
    | SpdyHandle h v =>
        let req := mark_req req true v in
        let res := {| res_id := res_id res; res_writeHead := SpdyWriteHead;
                      res_end := SpdyEnd; res_push := Some SpdyPush |} in
        [AssignRequest h req; AssignResponse h res; Deliver event req res]
    end.

(* ------------------------------------------------------------------ *)
(** ** The hose observers of [_onPlainConnection] *)

(** Events of the select-hose built on a plain connection. *)
Inductive HoseEvent :=
| HoseSelect (protocol : string) (socket : nat)  (* 'select' *)
| HoseError.                                     (* 'error' *)

Inductive PlainReaction :=
| PlainHandle (effects : list Effect)  (* self._handleConnection(socket, protocol) *)
| PlainDestroy (socket : nat).         (* socket.destroy() *)

(** The two observers [_onPlainConnection(socket)] registers on its hose;
    [socket] is the raw connection socket. *)
Definition onPlainConnection_react (st : ServerState) (socket : nat)
    (e : HoseEvent) : list PlainReaction :=
  match e with
  | HoseSelect p s => [PlainHandle (handleConnection st s (Some p))]
  | HoseError => [PlainDestroy socket]
  end.

(* ------------------------------------------------------------------ *)
(** ** Server construction: [_init], [instantiate] and [exports.create] *)

(** The fields of [options.spdy] that [_init] and the dispatch read. *)
Record SpdyOptions := mkSpdyOptions {
  so_protocols : option (list string);
  so_plain : bool;
  so_protocol : option string;
  so_connection_protocol : option string;
  so_connection_isServer : option bool
}.

(** The constructor options: [spdy], and the two negotiation lists a caller
    may set itself (an absent key is [None]). *)
Record Options := mkOptions {
  o_spdy : option SpdyOptions;
  o_NPNProtocols : option (list string);
  o_ALPNProtocols : option (list string)
}.

(** The [{}] of [options.spdy || {}]. *)
Definition empty_spdy_options : SpdyOptions :=
  {| so_protocols := None; so_plain := false; so_protocol := None;
     so_connection_protocol := None; so_connection_isServer := None |}.

(** [state.options = options.spdy || {};] *)
Definition spdy_options (o : Options) : SpdyOptions :=
  match o_spdy o with Some s => s | None => empty_spdy_options end.

Definition default_protocols : list string :=
  ["h2"; "spdy/3.1"; "spdy/3"; "spdy/2"; "http/1.1"; "http/1.0"].

(** [state.options.protocols || [...]]: an array is truthy, even empty. *)
Definition init_protocols (so : SpdyOptions) : list string :=
  match so_protocols so with Some ps => ps | None => default_protocols end.

(** The negotiation lists of [actualOptions]; [util._extend(target, options)]
    copies the caller's own keys over the defaults. *)
Record TlsArgs := mkTlsArgs { t_NPNProtocols : list string;
                              t_ALPNProtocols : list string }.

Definition actual_options (o : Options) : TlsArgs :=
  let protocols := init_protocols (spdy_options o) in
  {| t_NPNProtocols := match o_NPNProtocols o with
                       | Some l => l | None => protocols end;
     t_ALPNProtocols := match o_ALPNProtocols o with
                        | Some l => l | None => protocols end |}.

(** Arguments of the server constructors and of [exports.create]. *)
Inductive BaseCtor :=
| HttpsServer
| HttpServer
| OtherCtor (id : nat) (is_tls : bool).

(** [this instanceof tls.Server] for a server built on [base]. *)
Definition base_secure (b : BaseCtor) : bool :=
  match b with
  | HttpsServer => true
  | HttpServer => false
  | OtherCtor _ t => t
  end.

Inductive JsArg :=
| ArgObject (o : Options)
| ArgCtor (b : BaseCtor)
| ArgFunction (id : nat)
| ArgUndefined.

Definition arg_truthy (a : JsArg) : bool :=
  match a with ArgUndefined => false | _ => true end.

(** [typeof a === 'function']: constructors and plain functions. *)
Definition arg_is_function (a : JsArg) : bool :=
  match a with ArgCtor _ | ArgFunction _ => true | _ => false end.

(** The server after [_init]. [i_base_args] is the argument of the base
    constructor ([None]: called with none); [i_event_listeners] are the
    listeners of the connection event once [_init] is done. *)
Record Initialized := mkInitialized {
  i_base_args : option TlsArgs;
  i_state : ServerState;
  i_event : string;
  i_event_listeners : list EntryPoint;
  i_request_listeners : list JsArg;
  i_httpAllowHalfOpen : bool
}.

Inductive InitOutcome :=
| AssertionError                 (* 'Server does not have default listeners' *)
| ListenerTypeError              (* this.on('request', handler), handler
                                    not a function *)
| InitOk (r : Initialized).

(** [_init(base, options, handler)] on a server whose base constructor is
    [secure] (a [tls.Server]) and leaves [existing] as the listeners of the
    connection event. *)
Definition init (secure : bool) (options : Options) (handler : JsArg)
    (existing : list nat) : InitOutcome :=
  let so := spdy_options options in
  let base_args := if secure then Some (actual_options options) else None in
  let event := if secure then "secureConnection" else "connection" in
  match existing with
  | [] => AssertionError
  | _ =>
      let st := {| secure := secure; opt_plain := so_plain so;
                   opt_protocol := so_protocol so;
                   opt_connection_protocol := so_connection_protocol so;
                   opt_connection_isServer := so_connection_isServer so;
                   listeners := existing |} in
      (* if (handler) this.on('request', handler); *)
      if arg_truthy handler && negb (arg_is_function handler)
      then ListenerTypeError
      else
      InitOk {| i_base_args := base_args; i_state := st; i_event := event;
                i_event_listeners := [entry_point st];
                i_request_listeners := if arg_truthy handler then [handler] else [];
                i_httpAllowHalfOpen := true |}
  end.

(** Options with no own keys: what [_init] reads from a function passed
    as [options]. *)
Definition empty_options : Options :=
  {| o_spdy := None; o_NPNProtocols := None; o_ALPNProtocols := None |}.

(** [options] as an object: a function is an object without the keys read
    here; [undefined] is none ([options.spdy] throws). *)
Definition options_of (a : JsArg) : option Options :=
  match a with
  | ArgObject o => Some o
  | ArgCtor _ | ArgFunction _ => Some empty_options
  | ArgUndefined => None
  end.

(** [exports.create(base, options, handler)]: the base constructor, options
    and handler that [instantiate(base).create] receives; [None] when it
    throws before [_init]'s assertion: reading [options.spdy] of
    [undefined], or a base that is a plain function rather than a server
    constructor ([_init] then calls [this.listeners], which its prototype
    does not have). *)
Definition create (a1 a2 a3 : JsArg) : option (BaseCtor * Options * JsArg) :=
  let '(base, options, handler) :=
    match a1 with
    | ArgObject o => (ArgUndefined, ArgObject o, a2)  (* typeof base === 'object' *)
    | _ => (a1, a2, a3)
    end in
  match options_of options with
  | None => None
  | Some o =>
      match base with
      | ArgCtor b => Some (b, o, handler)
      | ArgFunction _ => None
      | _ =>
          if so_plain (spdy_options o) then Some (HttpServer, o, handler)
          else Some (HttpsServer, o, handler)
      end
  end.

(** [exports.create(...)] followed by the server's [_init], the base
    constructor having registered [existing] connection listeners. *)
Definition create_server (a1 a2 a3 : JsArg) (existing : list nat)
  : option InitOutcome :=
  match create a1 a2 a3 with
  | Some (b, o, h) => Some (init (base_secure b) o h existing)
  | None => None
  end.

(* ------------------------------------------------------------------ *)
(** ** Sample configurations *)

(** A TLS server with default options and two saved listeners. *)
Definition tls_server : ServerState :=
  {| secure := true; opt_plain := false; opt_protocol := None;
     opt_connection_protocol := None; opt_connection_isServer := None;
     listeners := [7; 8] |}.

(** A plain server ([spdy: {plain: true}]) also configured with a default
    [protocol: 'spdy/3']. *)
Definition plain_server_with_default : ServerState :=
  {| secure := false; opt_plain := true; opt_protocol := Some "spdy/3";
     opt_connection_protocol := None; opt_connection_isServer := None;
     listeners := [7] |}.

(** A TLS server in plain mode ([spdy.createServer(https.Server,
    {spdy: {plain: true}})]). *)
Definition tls_server_plain_mode : ServerState :=
  {| secure := true; opt_plain := true; opt_protocol := None;
     opt_connection_protocol := None; opt_connection_isServer := None;
     listeners := [7] |}.

(** A connection whose first bytes are an HTTP/1.1 request line and whose
    TLS layer negotiated ['h2']. *)
Definition http11_conn : Conn :=
  {| conn_socket := 1; npnProtocol := Some "h2"; alpnProtocol := None;
     conn_data := bytes_of_string "GET / HTTP/1.1"; conn_hose_socket := 2 |}.

(* ------------------------------------------------------------------ *)
(** ** Sanity checks of the sniffer *)

Example PREFACE_BUFFER_length : length PREFACE_BUFFER = 24.
Proof. reflexivity. Qed.

Example hoseFilter_get :
  hoseFilter (bytes_of_string "GET / HTTP/1.1") = Some "http/1.1".
Proof. reflexivity. Qed.

Example hoseFilter_preface_split :
  hoseFilter (firstn 10 PREFACE_BUFFER) = None /\
  hoseFilter PREFACE_BUFFER = Some "h2".
Proof. split; reflexivity. Qed.

Example hoseFilter_spdy : hoseFilter [128; 0; 3]%Z = Some "spdy".
Proof. reflexivity. Qed.

(* ------------------------------------------------------------------ *)
(** ** Lemmas about the comparison loop *)

Lemma preface_mismatch_false_iff (data : list Z) (i c : nat) :
  preface_mismatch data i c = false <->
  (forall j, i <= j < i + c -> nth j data 0%Z = nth j PREFACE_BUFFER 0%Z).
Proof.
  revert i; induction c as [|c IH]; intros i; cbn [preface_mismatch].
  - split; [intros _ j Hj; lia | reflexivity].
  - destruct (Z.eqb (nth i data 0%Z) (nth i PREFACE_BUFFER 0%Z)) eqn:E;
      cbn [negb].
    + apply Z.eqb_eq in E. rewrite IH. split.
      * intros H j Hj. destruct (Nat.eq_dec j i) as [->|Hne]; [exact E|].
        apply H; lia.
      * intros H j Hj. apply H; lia.
    + apply Z.eqb_neq in E. split; [discriminate|].
      intros H. exfalso. apply E, H. lia.
Qed.

Lemma preface_mismatch_true (data : list Z) (i c k : nat) :
  i <= k < i + c ->
  nth k data 0%Z <> nth k PREFACE_BUFFER 0%Z ->
  preface_mismatch data i c = true.
Proof.
  intros Hk Hd. destruct (preface_mismatch data i c) eqn:E; [reflexivity|].
  exfalso. apply Hd. apply (proj1 (preface_mismatch_false_iff data i c) E). exact Hk.
Qed.

Lemma nth_firstn_lt (A : Type) (l : list A) (m j : nat) (d : A) :
  j < m -> nth j (firstn m l) d = nth j l d.
Proof.
  revert m j; induction l as [|x l IH]; intros m j Hj.
  - destruct m; reflexivity.
  - destruct m as [|m]; [lia|]. destruct j as [|j]; [reflexivity|].
    simpl. apply IH. lia.
Qed.

Lemma hoseFilter_labels (data : list Z) (p : string) :
  hoseFilter data = Some p -> p = "spdy" \/ p = "http/1.1" \/ p = "h2".
Proof.
  unfold hoseFilter.
  destruct (Nat.ltb (length data) 1); [discriminate|].
  destruct (Z.eqb (nth 0 data 0%Z) 128); [injection 1; auto|].
  destruct (preface_mismatch _ _ _); [injection 1; auto|].
  destruct (negb _); [discriminate|injection 1; auto].
Qed.

(* ------------------------------------------------------------------ *)
(** ** The prefix sniffer: claims *)

(** C3: a buffer that agrees with the preface before position [k]
    ([k] within the preface), differs from it at [k] and does not start with
    the SPDY marker [0x80] is classified ['http/1.1'] from its first [k+1]
    bytes on: every buffer of at least [k+1] of its bytes gives ['http/1.1'],
    so no further bytes are requested. *)
Theorem hoseFilter_mismatch_http11 (data : list Z) (k : nat)
  (Hk : k < length PREFACE_BUFFER) (Hlen : k < length data)
  (Hagree : forall i, i < k -> nth i data 0%Z = nth i PREFACE_BUFFER 0%Z)
  (Hdiff : nth k data 0%Z <> nth k PREFACE_BUFFER 0%Z)
  (Hmarker : nth 0 data 0%Z <> 128%Z) :
  forall m, S k <= m -> hoseFilter (firstn m data) = Some "http/1.1".
Proof.
  intros m Hm. unfold hoseFilter.
  rewrite length_firstn.
  replace (Nat.ltb (Nat.min m (length data)) 1) with false
    by (symmetry; apply Nat.ltb_ge; lia).
  rewrite (nth_firstn_lt Z data m 0 0%Z) by lia.
  apply Z.eqb_neq in Hmarker. rewrite Hmarker.
  rewrite (preface_mismatch_true _ 0 _ k); [reflexivity| |].
  - split; [lia|]. rewrite Nat.add_0_l. lia.
  - rewrite (nth_firstn_lt Z data m k 0%Z) by lia. exact Hdiff.
Qed.

(** C4: a buffer whose first byte is the SPDY marker [0x80] is classified
    ['spdy'], whatever follows. *)
Theorem hoseFilter_spdy_marker (rest : list Z) :
  hoseFilter (128%Z :: rest) = Some "spdy".
Proof. reflexivity. Qed.

Lemma hoseFilter_preface_app (rest : list Z) :
  hoseFilter (PREFACE_BUFFER ++ rest) = Some "h2".
Proof.
  unfold hoseFilter. rewrite length_app.
  replace (Nat.min (length PREFACE_BUFFER + length rest) (length PREFACE_BUFFER))
    with (length PREFACE_BUFFER) by lia.
  replace (preface_mismatch (PREFACE_BUFFER ++ rest) 0 (length PREFACE_BUFFER))
    with false.
  - rewrite Nat.eqb_refl. reflexivity.
  - symmetry. apply preface_mismatch_false_iff. intros j Hj.
    apply app_nth1. lia.
Qed.

(** C5: on every buffer that is a prefix of the preface, the sniffer answers
    "need more bytes" ([None]) while fewer than the 24 preface bytes are
    present (the empty buffer included), and ['h2'] once all 24 are; a buffer
    that starts with the whole preface is ['h2'] whatever follows. *)
Theorem hoseFilter_preface_prefix :
  (forall n, hoseFilter (firstn n PREFACE_BUFFER) =
             if Nat.ltb n (length PREFACE_BUFFER) then None else Some "h2") /\
  (forall rest, hoseFilter (PREFACE_BUFFER ++ rest) = Some "h2").
Proof.
  split; [|exact hoseFilter_preface_app].
  intros n. rewrite PREFACE_BUFFER_length.
  destruct (Nat.ltb n 24) eqn:E.
  - apply Nat.ltb_lt in E.
    do 24 (destruct n as [|n]; [reflexivity|]). lia.
  - apply Nat.ltb_ge in E.
    rewrite firstn_all2 by (rewrite PREFACE_BUFFER_length; exact E).
    rewrite <- (app_nil_r PREFACE_BUFFER). apply hoseFilter_preface_app.
Qed.

(** Witness for C3: ["GET / HTTP/1.1"] differs from the preface at
    position 0. *)
Lemma hoseFilter_mismatch_http11_witness :
  hoseFilter (firstn 1 (bytes_of_string "GET / HTTP/1.1")) = Some "http/1.1".
Proof.
  apply (hoseFilter_mismatch_http11 (bytes_of_string "GET / HTTP/1.1") 0);
    [vm_compute; lia | vm_compute; lia | intros i Hi; lia
    | vm_compute; discriminate | vm_compute; discriminate | lia].
Defined.

(* ------------------------------------------------------------------ *)
(** ** Session bootstrap *)

Lemma handleConnection_session (st : ServerState) (socket : nat)
    (protocol : option string) (p : string) :
  resolve_protocol st protocol = Some p ->
  p <> "" -> p <> "http/1.1" -> p <> "http/1.0" ->
  handleConnection st socket protocol =
    ([CreateSession socket (session_family st p) (session_isServer st)]
      ++ start_effects p
      ++ [OnSession (DestroySocketOnError socket); OnSession RouteStream])%list.
Proof.
  intros Hr H0 H1 H2. unfold handleConnection. rewrite Hr.
  cbn [truthy is_str].
  apply String.eqb_neq in H0, H1, H2. rewrite H0, H1, H2. reflexivity.
Qed.

Lemma handleConnection_cases (st : ServerState) (socket : nat)
    (protocol : option string) :
  handleConnection st socket protocol = invokeDefault st socket \/
  exists p, resolve_protocol st protocol = Some p /\
    p <> "" /\ p <> "http/1.1" /\ p <> "http/1.0".
Proof.
  destruct (resolve_protocol st protocol) as [p|] eqn:Hr.
  - destruct (String.eqb_spec p ""); [left|].
    { unfold handleConnection. rewrite Hr. subst p. reflexivity. }
    destruct (String.eqb_spec p "http/1.1"); [left|].
    { unfold handleConnection. rewrite Hr. subst p. reflexivity. }
    destruct (String.eqb_spec p "http/1.0"); [left|].
    { unfold handleConnection. rewrite Hr. subst p. reflexivity. }
    right. exists p. auto.
  - left. unfold handleConnection. rewrite Hr. reflexivity.
Qed.

Lemma session_react_app (l1 l2 : list Effect) (e : SessionEvent) :
  session_react (l1 ++ l2) e = session_react l1 e ++ session_react l2 e.
Proof. unfold session_react. apply flat_map_app. Qed.

Lemma session_react_start (p : string) (e : SessionEvent) :
  session_react (start_effects p) e = [].
Proof.
  unfold start_effects.
  repeat match goal with |- context [if ?b then _ else _] => destruct b end;
    reflexivity.
Qed.

Lemma started_versions_app (l1 l2 : list Effect) :
  started_versions (l1 ++ l2) = started_versions l1 ++ started_versions l2.
Proof. unfold started_versions. apply flat_map_app. Qed.

Lemma invokeDefault_no_session (st : ServerState) (socket s : nat)
    (f : string) (b : bool) :
  ~ In (CreateSession s f b) (invokeDefault st socket).
Proof.
  unfold invokeDefault. rewrite in_map_iff. intros [l [H _]]. discriminate.
Qed.

(** C6: when the resolved identifier is falsy, ['http/1.1'] or ['http/1.0'],
    [_handleConnection] builds no session: its only effects are the calls of
    the saved default listeners, in their order, each with the socket it
    was given. *)
Theorem handleConnection_passthrough (st : ServerState) (socket : nat)
    (protocol : option string)
    (H : truthy (resolve_protocol st protocol) = false \/
         resolve_protocol st protocol = Some "http/1.1" \/
         resolve_protocol st protocol = Some "http/1.0") :
  handleConnection st socket protocol =
    map (fun l => CallDefault l socket) (listeners st) /\
  (forall s f b, ~ In (CreateSession s f b) (handleConnection st socket protocol)).
Proof.
  assert (E : handleConnection st socket protocol = invokeDefault st socket).
  { unfold handleConnection. cbv zeta.
    destruct H as [H|[H|H]]; rewrite H; reflexivity. }
  rewrite E. split; [reflexivity|]. intros s f b. apply invokeDefault_no_session.
Qed.

(** Witness for C6: an ['http/1.1'] connection on the TLS server goes to
    listeners 7 and 8. *)
Lemma handleConnection_passthrough_witness :
  handleConnection tls_server 1 (Some "http/1.1") =
    [CallDefault 7 1; CallDefault 8 1].
Proof.
  apply (handleConnection_passthrough tls_server 1 (Some "http/1.1")).
  right; left; reflexivity.
Defined.

(** C9: every session that [_handleConnection] constructs has an error
    observer, and the only reaction of the registered observers to a
    session error is destroying the raw socket. *)
Theorem session_error_destroys_socket (st : ServerState) (socket : nat)
    (protocol : option string)
    (H : exists f b, In (CreateSession socket f b)
                        (handleConnection st socket protocol)) :
  session_react (handleConnection st socket protocol) SessionError =
    [DestroySocket socket].
Proof.
  destruct (handleConnection_cases st socket protocol)
    as [E | [p [Hr [H0 [H1 H2]]]]].
  - exfalso. destruct H as [f [b Hin]]. rewrite E in Hin.
    exact (invokeDefault_no_session st socket socket f b Hin).
  - rewrite (handleConnection_session st socket protocol p Hr H0 H1 H2).
    rewrite !session_react_app, session_react_start. reflexivity.
Qed.

(** Witness for C9: an ['h2'] connection on the TLS server. *)
Lemma session_error_destroys_socket_witness :
  session_react (handleConnection tls_server 1 (Some "h2")) SessionError =
    [DestroySocket 1].
Proof.
  apply session_error_destroys_socket.
  exists "http2", true. simpl. left. reflexivity.
Defined.

(* ------------------------------------------------------------------ *)
(** ** Version pinning *)

(** C1 (defect): the HTTP/2 identifier that the server itself uses,
    ['h2'] (the sniffer's label for the preface and the first entry of the
    default negotiation list), builds an ['http2'] session without pinning
    version 4, because [_handleConnection] compares with the literal
    ['http2'], which does pin 4. The same holds for a plain-mode server
    that sniffs the preface. *)
Theorem h2_session_not_pinned :
  (hoseFilter PREFACE_BUFFER = Some "h2") /\
  (hd "" default_protocols = "h2") /\
  (In (CreateSession 1 "http2" true)
      (handleConnection tls_server 1 (Some "h2"))) /\
  (started_versions (handleConnection tls_server 1 (Some "h2")) = []) /\
  (started_versions (handleConnection tls_server 1 (Some "http2")) = [4%Q]) /\
  (connection_effects tls_server_plain_mode
     {| conn_socket := 1; npnProtocol := None; alpnProtocol := None;
        conn_data := PREFACE_BUFFER; conn_hose_socket := 2 |} =
     [CreateSession 2 "http2" true; OnSession (DestroySocketOnError 2);
      OnSession RouteStream]).
Proof.
  repeat split; first [vm_compute; reflexivity | simpl; left; reflexivity].
Qed.

(* ------------------------------------------------------------------ *)
(** ** The negotiation resolver *)

Lemma resolve_protocol_label (st : ServerState) (data : list Z) (p : string) :
  hoseFilter data = Some p -> resolve_protocol st (Some p) = Some p.
Proof.
  intros H. unfold resolve_protocol.
  destruct (hoseFilter_labels data p H) as [ -> | [ -> | -> ] ]; reflexivity.
Qed.

(** C2 (as the code does it): the resolution mode is chosen per server by
    [spdy.plain]. Without it the sniffer is never run: a secured connection
    with a truthy NPN/ALPN result uses that result, any other connection the
    configured default protocol (possibly none). With it the sniffer is run on
    every connection, secured or not, and its definitive result is used,
    ahead of both the negotiated protocol and the configured default;
    until it is definitive the connection stays pending. *)
Theorem resolution_order (st : ServerState) (c : Conn) :
  (opt_plain st = false -> secure st = true ->
     truthy (js_or (npnProtocol c) (alpnProtocol c)) = true ->
     resolution st c = Resolved false (js_or (npnProtocol c) (alpnProtocol c))) /\
  (opt_plain st = false ->
     (secure st = false \/ truthy (js_or (npnProtocol c) (alpnProtocol c)) = false) ->
     resolution st c = Resolved false (opt_protocol st)) /\
  (opt_plain st = true -> forall p, hoseFilter (conn_data c) = Some p ->
     resolution st c = Resolved true (Some p)) /\
  (opt_plain st = true -> hoseFilter (conn_data c) = None ->
     resolution st c = Pending).
Proof.
  unfold resolution, dispatch, entry_point.
  repeat split.
  - intros Hp Hs Ht. rewrite Hp. unfold onConnection_protocol, resolve_protocol.
    rewrite Hs, Ht. reflexivity.
  - intros Hp Hor. rewrite Hp. unfold onConnection_protocol, resolve_protocol.
    destruct Hor as [Hs|Ht].
    + rewrite Hs. reflexivity.
    + destruct (secure st); [rewrite Ht|]; reflexivity.
  - intros Hp p Hf. rewrite Hp, Hf.
    rewrite (resolve_protocol_label st (conn_data c) p Hf). reflexivity.
  - intros Hp Hf. rewrite Hp, Hf. reflexivity.
Qed.

(** Witness for C2: on the plain server with a default protocol, an HTTP/1.1
    request line is sniffed as ['http/1.1']. *)
Lemma resolution_order_witness :
  resolution plain_server_with_default http11_conn =
    Resolved true (Some "http/1.1").
Proof.
  apply (proj1 (proj2 (proj2 (resolution_order plain_server_with_default
                                 http11_conn))) eq_refl "http/1.1").
  vm_compute. reflexivity.
Defined.

(** C2 counterexample: in plain mode neither the configured default
    protocol nor a TLS-negotiated protocol governs the connection: the
    sniffer runs and its result is used. *)
Lemma resolution_plain_mode_sniffs :
  resolution plain_server_with_default http11_conn <>
    Resolved false (opt_protocol plain_server_with_default) /\
  resolution tls_server_plain_mode http11_conn <>
    Resolved false (js_or (npnProtocol http11_conn) (alpnProtocol http11_conn)).
Proof. split; vm_compute; discriminate. Qed.

(* ------------------------------------------------------------------ *)
(** ** The stream-socket adapter: claims *)

(** C7: [_onStream] hands the adapter socket to every saved default
    listener, in order, strictly before [handle.emitRequest()], which is its
    last step and happens once; the socket each listener receives already
    reports itself readable, writable and half-open-capable, whatever the
    [net.Socket] constructor left in those fields. *)
Theorem onStream_default_before_emitRequest
    (init_encrypted init_readable init_writable : bool)
    (st : ServerState) (stream : nat) :
  exists pre s,
    onStream init_encrypted init_readable init_writable st stream =
      pre ++ map (fun l => SE_default l s) (listeners st)
          ++ [SE_emitRequest stream] /\
    ~ In (SE_emitRequest stream) pre /\
    (forall l s', In (SE_default l s') pre -> False) /\
    as_handle s = stream /\ as_readable s = true /\ as_writable s = true /\
    as_allowHalfOpen s = true.
Proof.
  unfold onStream. cbv zeta.
  eexists; eexists; split; [reflexivity|].
  cbn. repeat split.
  - intros [H|[H|[]]]; discriminate.
  - intros l s' [H|[H|[]]]; discriminate.
Qed.

(** C10: every adapter socket [_onStream] builds has [encrypted] set to
    [true], on a server of either kind: the value it is handed to the handle
    and to the default listeners with does not depend on [secure]. *)
Theorem onStream_encrypted
    (init_encrypted init_readable init_writable : bool)
    (st : ServerState) (stream : nat) :
  Forall (fun e => match e with
                   | SE_assignSocket s | SE_default _ s => as_encrypted s = true
                   | _ => True
                   end)
         (onStream init_encrypted init_readable init_writable st stream).
Proof.
  unfold onStream. cbv zeta.
  apply Forall_app; split; [repeat constructor|].
  apply Forall_app; split; [|repeat constructor].
  apply Forall_forall. intros e He. apply in_map_iff in He.
  destruct He as [l [<- _]]. reflexivity.
Qed.

(* ------------------------------------------------------------------ *)
(** ** The request/response shim: claims *)

(** C8: for a ['request'] event, a request whose socket handle is not a
    [spdy.handle] is delivered marked [isSpdy = false], [spdyVersion = 1],
    with the response untouched; otherwise the request is marked
    [isSpdy = true] with the version its session reports, the response's
    [writeHead], [end] and [push] are the stream-routed ones, and the handle
    is given the request and then the response before the pair is
    delivered. Nothing else of either object changes. *)
Theorem emit_request_shim :
  (forall req res id, req_handle req = OtherHandle id ->
     exists req',
       emit "request" req res = [Deliver "request" req' res] /\
       req_isSpdy req' = Some false /\ req_spdyVersion req' = Some 1%Q /\
       req_id req' = req_id req /\ req_handle req' = req_handle req) /\
  (forall req res h v, req_handle req = SpdyHandle h v ->
     exists req' res',
       emit "request" req res =
         [AssignRequest h req'; AssignResponse h res';
          Deliver "request" req' res'] /\
       req_isSpdy req' = Some true /\ req_spdyVersion req' = Some v /\
       req_id req' = req_id req /\ req_handle req' = req_handle req /\
       res_writeHead res' = SpdyWriteHead /\ res_end res' = SpdyEnd /\
       res_push res' = Some SpdyPush /\ res_id res' = res_id res).
Proof.
  split.
  - intros req res id H. unfold emit. cbn [String.eqb negb]. rewrite H.
    eexists. repeat split; try reflexivity. cbn. exact H.
  - intros req res h v H. unfold emit. cbn [String.eqb negb]. rewrite H.
    do 2 eexists. repeat split; try reflexivity. cbn. exact H.
Qed.

(** Witness for C8: a request on stream handle 5 of a SPDY/3.1 session. *)
Lemma emit_request_shim_witness :
  exists req' res',
    emit "request"
      {| req_id := 1; req_handle := SpdyHandle 5 (31 # 10);
         req_isSpdy := None; req_spdyVersion := None |}
      {| res_id := 2; res_writeHead := NativeImpl; res_end := NativeImpl;
         res_push := None |} =
      [AssignRequest 5 req'; AssignResponse 5 res'; Deliver "request" req' res'] /\
    req_isSpdy req' = Some true /\ req_spdyVersion req' = Some (31 # 10)%Q /\
    req_id req' = 1 /\
    req_handle req' = SpdyHandle 5 (31 # 10) /\
    res_writeHead res' = SpdyWriteHead /\ res_end res' = SpdyEnd /\
    res_push res' = Some SpdyPush /\ res_id res' = 2.
Proof.
  apply (proj2 emit_request_shim). reflexivity.
Defined.

(* ------------------------------------------------------------------ *)
(** ** Further properties of the sniffer *)

Lemma preface_mismatch_app (data more : list Z) (i c : nat) :
  i + c <= length data ->
  preface_mismatch (data ++ more) i c = preface_mismatch data i c.
Proof.
  revert i; induction c as [|c IH]; intros i Hc; cbn [preface_mismatch];
    [reflexivity|].
  rewrite app_nth1 by lia. rewrite IH by lia. reflexivity.
Qed.

Lemma preface_mismatch_mono (data : list Z) (i c c' : nat) :
  c <= c' -> preface_mismatch data i c = true -> preface_mismatch data i c' = true.
Proof.
  revert i c'; induction c as [|c IH]; intros i c' Hc H; [discriminate|].
  destruct c' as [|c']; [lia|]. cbn [preface_mismatch] in *.
  destruct (negb _); [reflexivity|]. apply IH; [lia|exact H].
Qed.

Lemma hoseFilter_firstn_preface (n : nat) :
  n < length PREFACE_BUFFER -> hoseFilter (firstn n PREFACE_BUFFER) = None.
Proof.
  rewrite PREFACE_BUFFER_length. intros Hn.
  do 24 (destruct n as [|n]; [reflexivity|]). lia.
Qed.

(** X1: a definitive answer of the sniffer is kept when more bytes arrive:
    re-running it on the grown buffer gives the same protocol. *)
Theorem hoseFilter_extend_stable (data more : list Z) (l : string) :
  hoseFilter data = Some l -> hoseFilter (data ++ more) = Some l.
Proof.
  unfold hoseFilter. rewrite length_app.
  destruct (Nat.ltb_spec (length data) 1) as [H0|H0]; [discriminate|].
  replace (Nat.ltb (length data + length more) 1) with false
    by (symmetry; apply Nat.ltb_ge; lia).
  rewrite app_nth1 by lia.
  destruct (Z.eqb (nth 0 data 0%Z) 128); [exact (fun H => H)|].
  destruct (preface_mismatch data 0 (Nat.min (length data) (length PREFACE_BUFFER)))
    eqn:Hm.
  - intros H. rewrite (preface_mismatch_mono _ 0
      (Nat.min (length data) (length PREFACE_BUFFER))); [exact H|lia|].
    rewrite preface_mismatch_app by lia. exact Hm.
  - destruct (Nat.eqb_spec (Nat.min (length data) (length PREFACE_BUFFER))
                (length PREFACE_BUFFER)) as [Ha|Ha]; [|discriminate].
    intros H.
    replace (Nat.min (length data + length more) (length PREFACE_BUFFER))
      with (length PREFACE_BUFFER) by lia.
    rewrite preface_mismatch_app by lia. rewrite <- Ha, Hm, Ha, Nat.eqb_refl.
    exact H.
Qed.

(** Witness for X1: the first ten preface bytes followed by ['X'] are
    ['http/1.1'] also once a request line follows. *)
Lemma hoseFilter_extend_stable_witness :
  hoseFilter (firstn 10 PREFACE_BUFFER ++ [88%Z] ++
              bytes_of_string "GET / HTTP/1.1") = Some "http/1.1".
Proof.
  rewrite app_assoc. apply hoseFilter_extend_stable. vm_compute. reflexivity.
Defined.

(** X2: the sniffer asks for more bytes exactly on the buffers that are a
    proper prefix of the 24-byte preface (the empty buffer included). *)
Theorem hoseFilter_pending_iff (data : list Z) :
  hoseFilter data = None <->
  length data < length PREFACE_BUFFER /\
  data = firstn (length data) PREFACE_BUFFER.
Proof.
  split.
  - unfold hoseFilter.
    destruct (Nat.ltb_spec (length data) 1) as [H0|H0].
    + intros _. destruct data; [|simpl in H0; lia].
      split; [rewrite PREFACE_BUFFER_length; simpl; lia|reflexivity].
    + destruct (Z.eqb (nth 0 data 0%Z) 128); [discriminate|].
      destruct (preface_mismatch data 0 _) eqn:Hm; [discriminate|].
      destruct (Nat.eqb_spec (Nat.min (length data) (length PREFACE_BUFFER))
                  (length PREFACE_BUFFER)) as [Ha|Ha]; [discriminate|].
      intros _. assert (Hlt : length data < length PREFACE_BUFFER) by lia.
      split; [exact Hlt|].
      apply nth_ext with (d := 0%Z) (d' := 0%Z).
      * rewrite length_firstn. lia.
      * intros n Hn. rewrite nth_firstn_lt by exact Hn.
        apply (proj1 (preface_mismatch_false_iff _ _ _) Hm). lia.
  - intros [Hlt Heq]. rewrite Heq. apply hoseFilter_firstn_preface.
    exact Hlt.
Qed.

(** X3: the sniffer answers ['h2'] exactly on the buffers that start with
    the whole preface. *)
Theorem hoseFilter_h2_iff (data : list Z) :
  hoseFilter data = Some "h2" <->
  firstn (length PREFACE_BUFFER) data = PREFACE_BUFFER.
Proof.
  split.
  - unfold hoseFilter.
    destruct (Nat.ltb (length data) 1); [discriminate|].
    destruct (Z.eqb (nth 0 data 0%Z) 128); [discriminate|].
    destruct (preface_mismatch data 0 _) eqn:Hm; [discriminate|].
    destruct (Nat.eqb_spec (Nat.min (length data) (length PREFACE_BUFFER))
                (length PREFACE_BUFFER)) as [Ha|Ha]; [|discriminate].
    intros _. rewrite Ha in Hm.
    apply nth_ext with (d := 0%Z) (d' := 0%Z).
    + rewrite length_firstn. lia.
    + intros n Hn. rewrite length_firstn in Hn.
      rewrite nth_firstn_lt by lia.
      apply (proj1 (preface_mismatch_false_iff _ _ _) Hm). lia.
  - intros H. rewrite <- (firstn_skipn (length PREFACE_BUFFER) data), H.
    apply hoseFilter_preface_app.
Qed.

(* ------------------------------------------------------------------ *)
(** ** Further properties of the dispatch and the bootstrap *)

(** X4: in plain mode, a connection the sniffer classifies as
    ['http/1.1'] builds no session: the socket the hose selected goes to the
    saved default listeners, in order, whatever default protocol is
    configured. *)
Theorem plain_mode_http11_passthrough (st : ServerState) (c : Conn)
    (Hplain : opt_plain st = true)
    (Hf : hoseFilter (conn_data c) = Some "http/1.1") :
  connection_effects st c = invokeDefault st (conn_hose_socket c).
Proof.
  unfold connection_effects, dispatch, entry_point. rewrite Hplain, Hf.
  reflexivity.
Qed.

(** Witness for X4: an HTTP/1.1 request line on the plain server whose
    default protocol is ['spdy/3']. *)
Lemma plain_mode_http11_passthrough_witness :
  connection_effects plain_server_with_default http11_conn = [CallDefault 7 2].
Proof.
  apply plain_mode_http11_passthrough; [reflexivity | vm_compute; reflexivity].
Defined.

(** X5: in plain mode, a connection whose first byte is [0x80] gets a
    ['spdy'] session built on the socket the hose selected (unless
    [options.connection.protocol] overrides the family), with the error and
    stream observers registered on it. *)
Theorem plain_mode_spdy_session (st : ServerState) (c : Conn)
    (Hplain : opt_plain st = true)
    (Hover : opt_connection_protocol st = None)
    (Hmark : nth 0 (conn_data c) 0%Z = 128%Z) :
  connection_effects st c =
    [CreateSession (conn_hose_socket c) "spdy" (session_isServer st);
     OnSession (DestroySocketOnError (conn_hose_socket c));
     OnSession RouteStream].
Proof.
  assert (Hf : hoseFilter (conn_data c) = Some "spdy").
  { unfold hoseFilter. rewrite Hmark.
    destruct (conn_data c) as [|b l]; [discriminate|reflexivity]. }
  unfold connection_effects, dispatch, entry_point. rewrite Hplain, Hf.
  rewrite (handleConnection_session st _ _ "spdy") by (reflexivity || discriminate).
  unfold session_family. rewrite Hover. reflexivity.
Qed.

(** Witness for X5. *)
Lemma plain_mode_spdy_session_witness :
  connection_effects plain_server_with_default
    {| conn_socket := 1; npnProtocol := None; alpnProtocol := None;
       conn_data := [128; 3]%Z; conn_hose_socket := 2 |} =
    [CreateSession 2 "spdy" true; OnSession (DestroySocketOnError 2);
     OnSession RouteStream].
Proof.
  apply (plain_mode_spdy_session plain_server_with_default); reflexivity.
Defined.

(** X6: a plaintext server that is not in plain mode and has no default
    protocol never builds a session: every connection goes, unchanged, to
    the saved default listeners. *)
Theorem plaintext_without_default_passthrough (st : ServerState) (c : Conn)
    (Hplain : opt_plain st = false) (Hsec : secure st = false)
    (Hdef : truthy (opt_protocol st) = false) :
  connection_effects st c = invokeDefault st (conn_socket c).
Proof.
  unfold connection_effects, dispatch, entry_point, onConnection_protocol.
  rewrite Hplain, Hsec. unfold handleConnection, resolve_protocol. cbn [truthy].
  rewrite Hdef. reflexivity.
Qed.

(** Witness for X6. *)
Lemma plaintext_without_default_passthrough_witness :
  connection_effects
    {| secure := false; opt_plain := false; opt_protocol := None;
       opt_connection_protocol := None; opt_connection_isServer := None;
       listeners := [7; 8] |} http11_conn = [CallDefault 7 1; CallDefault 8 1].
Proof. apply plaintext_without_default_passthrough; reflexivity. Defined.

(** X7: every session [_handleConnection] builds routes each stream it
    announces to [_onStream] exactly once, and does nothing else on it. *)
Theorem session_stream_routed (st : ServerState) (socket : nat)
    (protocol : option string) (stream : nat)
    (H : exists f b, In (CreateSession socket f b)
                        (handleConnection st socket protocol)) :
  session_react (handleConnection st socket protocol) (SessionStream stream) =
    [HandleStream stream].
Proof.
  destruct (handleConnection_cases st socket protocol)
    as [E | [p [Hr [H0 [H1 H2]]]]].
  - exfalso. destruct H as [f [b Hin]]. rewrite E in Hin.
    exact (invokeDefault_no_session st socket socket f b Hin).
  - rewrite (handleConnection_session st socket protocol p Hr H0 H1 H2).
    rewrite !session_react_app, session_react_start. reflexivity.
Qed.

(** Witness for X7. *)
Lemma session_stream_routed_witness :
  session_react (handleConnection tls_server 1 (Some "spdy/3")) (SessionStream 9) =
    [HandleStream 9].
Proof.
  apply session_stream_routed. exists "spdy", true. left. reflexivity.
Defined.

(** X8: [emit] delivers every event exactly once, as its last step and
    under the same name; before that it only hands the request and the
    response to a stream handle, and only for a ['request'] event whose
    socket handle is that [spdy.handle]. *)
Theorem emit_delivers_last (ev : string) (req : Req) (res : Res) :
  exists pre req' res',
    emit ev req res = pre ++ [Deliver ev req' res'] /\
    Forall (fun e => match e with
                     | AssignRequest h _ | AssignResponse h _ =>
                         ev = "request" /\ exists v, req_handle req = SpdyHandle h v
                     | Deliver _ _ _ => False
                     end) pre.
Proof.
  unfold emit. destruct (String.eqb_spec ev "request") as [->|Hne]; cbn [negb].
  - destruct (req_handle req) as [id|h v] eqn:Hh.
    + exists [], (mark_req req false 1), res. split; [reflexivity|constructor].
    + do 3 eexists. split.
      * change [AssignRequest h (mark_req req true v);
                AssignResponse h {| res_id := res_id res;
                  res_writeHead := SpdyWriteHead; res_end := SpdyEnd;
                  res_push := Some SpdyPush |};
                Deliver "request" (mark_req req true v)
                  {| res_id := res_id res; res_writeHead := SpdyWriteHead;
                     res_end := SpdyEnd; res_push := Some SpdyPush |}]
          with ([AssignRequest h (mark_req req true v);
                 AssignResponse h {| res_id := res_id res;
                   res_writeHead := SpdyWriteHead; res_end := SpdyEnd;
                   res_push := Some SpdyPush |}] ++
                [Deliver "request" (mark_req req true v)
                  {| res_id := res_id res; res_writeHead := SpdyWriteHead;
                     res_end := SpdyEnd; res_push := Some SpdyPush |}]).
        reflexivity.
      * repeat constructor; eauto.
  - exists [], req, res. split; [reflexivity|constructor].
Qed.

(* ------------------------------------------------------------------ *)
(** ** Server construction *)

(** X12: [create(options, handler)] without a base builds a plaintext
    server in plain mode when [options.spdy.plain] is set and a TLS server
    with the negotiation entry point otherwise; the handler is its second
    argument, and a third argument is ignored. This holds when the base
    left a connection listener and the handler is absent or a function
    (an object handler makes [this.on('request', handler)] throw). *)
Theorem create_without_base (o : Options) (h a3 : JsArg) (existing : list nat)
    (Hne : existing <> [])
    (Hh : arg_truthy h = false \/ arg_is_function h = true) :
  exists r, create_server (ArgObject o) h a3 existing = Some (InitOk r) /\
    secure (i_state r) = negb (so_plain (spdy_options o)) /\
    i_event_listeners r =
      [if so_plain (spdy_options o) then OnPlainConnection else OnConnection] /\
    i_request_listeners r = (if arg_truthy h then [h] else []).
Proof.
  destruct existing as [|l ls]; [contradiction|].
  destruct h as [ho| | |]; [destruct Hh as [H|H]; discriminate H| | |];
  unfold create_server, create, init; cbn [options_of];
  destruct (so_plain (spdy_options o)) eqn:Hp; cbn;
    eexists; (split; [reflexivity|]); cbn; unfold entry_point; cbn;
    rewrite Hp; repeat split.
Qed.

(** Witness for X12. *)
Lemma create_without_base_witness :
  exists r, create_server (ArgObject empty_options) (ArgFunction 3) ArgUndefined [7]
              = Some (InitOk r) /\
    secure (i_state r) = true /\ i_event_listeners r = [OnConnection] /\
    i_request_listeners r = [ArgFunction 3].
Proof.
  apply (create_without_base empty_options); [discriminate | right; reflexivity].
Defined.

(** X13: with an explicit base, [create(base, options, handler)] uses it
    whatever [spdy.plain] says: a TLS base in plain mode gives a secured
    server whose connections all go through the sniffer. This holds when
    the base left a connection listener and the handler is absent or a
    function. *)
Theorem create_with_base (b : BaseCtor) (o : Options) (h : JsArg)
    (existing : list nat) (Hne : existing <> [])
    (Hh : arg_truthy h = false \/ arg_is_function h = true) :
  exists r, create_server (ArgCtor b) (ArgObject o) h existing = Some (InitOk r) /\
    secure (i_state r) = base_secure b /\
    opt_plain (i_state r) = so_plain (spdy_options o) /\
    i_request_listeners r = (if arg_truthy h then [h] else []).
Proof.
  destruct existing as [|l ls]; [contradiction|].
  destruct h as [ho| | |]; [destruct Hh as [H|H]; discriminate H| | |];
  unfold create_server, create, init; cbn [options_of];
  eexists; (split; [reflexivity|]); cbn; repeat split.
Qed.

(** Witness for X13: [create(https.Server, {spdy: {plain: true}})]. *)
Lemma create_with_base_witness :
  exists r,
    create_server (ArgCtor HttpsServer)
      (ArgObject {| o_spdy := Some {| so_protocols := None; so_plain := true;
                                      so_protocol := None;
                                      so_connection_protocol := None;
                                      so_connection_isServer := None |};
                    o_NPNProtocols := None; o_ALPNProtocols := None |})
      ArgUndefined [7] = Some (InitOk r) /\
    secure (i_state r) = true /\ opt_plain (i_state r) = true /\
    i_request_listeners r = [].
Proof. apply create_with_base; [discriminate | left; reflexivity]. Defined.

